(** * The application factory of the backend ([backend/app/__init__.py])

    [create_app] builds a Flask application object: it attaches an empty
    dictionary for the users' graphs, loads the default configuration,
    merges the test configuration when one is given, installs CORS and
    registers the API blueprint.

    The Python objects involved are embedded as follows.
    - Python values are the inductive type [Py.value]; a dictionary is the
      list of its items in insertion order; the text of a [str] is kept
      as its UTF-8 bytes.
    - The objects allocated by the function live in a heap (a finite map
      from locations to dictionaries), so that two applications can be
      told to share, or not to share, their stores.
    - Statements run in a state-and-exception monad [M]: a computation
      takes the process state and either returns a value with the new
      state or raises a Python exception.
    - The framework operations the factory calls ([Flask], [from_mapping],
      [CORS], [register_blueprint]) are modelled by their effect on the
      application object; each records its call, in order, in the state.
      What these operations take from code that is not in the repository
      (the Unicode tables behind [str.isupper], the way the CORS
      extension reads its own settings) is a parameter of the
      development. *)

From Stdlib Require Import ZArith Ascii.
From stdpp Require Import gmap strings list fin_maps.

(** ** Python values *)

Module Py.

#[warnings="-register-all"] Inductive value :=
| PyNone
| PyBool (b : bool)
| PyInt (n : Z)
| PyStr (s : string)
| PyDict (items : list (value * value)).

(** A dictionary is the sequence of its items, in insertion order. *)
Definition dict : Type := list (value * value).

(** The keys of a Python dictionary are pairwise distinct. *)
Definition dict_wf (d : dict) : Prop := NoDup (d.*1).

Inductive exn := TypeError | ValueError | AttributeError.

(** Truth value testing, as done by [if test_config:]. *)
Definition truthy (v : value) : bool :=
  match v with
  | PyNone => false
  | PyBool b => b
  | PyInt n => negb (n =? 0)%Z
  | PyStr s => match s with EmptyString => false | String _ _ => true end
  | PyDict items => match items with [] => false | _ :: _ => true end
  end.

Definition is_lower (c : ascii) : bool :=
  let n := nat_of_ascii c in (97 <=? n)%nat && (n <=? 122)%nat.

Definition is_upper (c : ascii) : bool :=
  let n := nat_of_ascii c in (65 <=? n)%nat && (n <=? 90)%nat.

Fixpoint has_lower (s : string) : bool :=
  match s with
  | EmptyString => false
  | String c s' => is_lower c || has_lower s'
  end.

Fixpoint has_upper (s : string) : bool :=
  match s with
  | EmptyString => false
  | String c s' => is_upper c || has_upper s'
  end.

(** The text has ASCII characters only: every byte is below 128. *)
Fixpoint ascii_only (s : string) : bool :=
  match s with
  | EmptyString => true
  | String c s' => (nat_of_ascii c <? 128)%nat && ascii_only s'
  end.

Definition is_str (v : value) : bool :=
  match v with PyStr _ => true | _ => false end.

(** All the keys of the dictionary are strings. *)
Definition str_keys (d : dict) : bool := forallb (λ kv, is_str kv.1) d.

End Py.

Import Py.

(** ** Process state and the monad of statements *)

Definition loc : Type := nat.

(** The framework operations, as they are called. *)
Inductive call :=
| CallFlask (import_name : string)
| CallSetattr (name : string) (target : loc)
| CallFromMapping (mapping : value) (kwargs : list (string * value))
| CallCORS
| CallRegisterBlueprint (name : string).

Record state := State {
  heap : gmap loc dict;
  calls : list call
}.

Inductive outcome (A : Type) :=
| Return (a : A) (s : state)
| Raise (e : exn).
Arguments Return {A} a s.
Arguments Raise {A} e.

Definition M (A : Type) : Type := state → outcome A.

#[global] Instance M_ret : MRet M := λ A a s, Return a s.

#[global] Instance M_bind : MBind M := λ A B f m s,
  match m s with
  | Return a s' => f a s'
  | Raise e => Raise e
  end.

Definition raise {A} (e : exn) : M A := λ _, Raise e.

Definition record (c : call) : M unit :=
  λ s, Return () (State (heap s) (calls s ++ [c])).

(** The dictionary display [{}]: a new, empty dictionary object. *)
Definition new_dict : M loc :=
  λ s, let l := fresh (dom (heap s)) in
       Return l (State (<[l := []]> (heap s)) (calls s)).

(** An in-place update of the dictionary object at [l] (an item
    assignment, a deletion, ...), through any reference to it. *)
Definition store_update (l : loc) (f : dict → dict) (s : state) : state :=
  State (alter f l (heap s)) (calls s).

(** ** The framework objects *)

Record url_rule := UrlRule {
  rule_path : string;
  rule_endpoint : string
}.

(** A blueprint: its name and the rules its view functions were
    decorated with, paths given in full. *)
Record Blueprint := MkBlueprint {
  bp_name : string;
  bp_rules : list url_rule
}.

(** The policy of an installed CORS hook: the routes it covers and the
    origins it admits. *)
Record cors_policy := CorsPolicy {
  cors_resources : string;
  cors_origins : string
}.

(** What the CORS extension makes of its options: the policy, and
    whether the instance's exception handlers are wrapped as well. *)
Record cors_setup := CorsSetup {
  setup_policy : cors_policy;
  setup_intercept : bool
}.

(** An attribute bound on the instance itself: a reference to a
    dictionary, or a wrapper around the method of that name. *)
Inductive attr :=
| StoreRef (l : loc)
| Wrapped (method : string).

Record App := MkApp {
  import_name : string;
  config : gmap string value;
  attrs : gmap string attr;          (* attributes set on the instance *)
  after_request_funcs : list cors_policy;
  blueprints : gmap string Blueprint;
  url_map : list url_rule
}.

Definition set_config (app : App) (cfg : gmap string value) : App :=
  MkApp (import_name app) cfg (attrs app) (after_request_funcs app)
        (blueprints app) (url_map app).

(** The rule under which a blueprint's view is mounted: the endpoint is
    qualified by the blueprint's name. *)
Definition mounted (bp : Blueprint) (r : url_rule) : url_rule :=
  UrlRule (rule_path r) (bp_name bp +:+ "." +:+ rule_endpoint r).

(** [app.name = value], the value being a dictionary object. *)
Definition setattr (app : App) (name : string) (target : loc) : M App :=
  _ ← record (CallSetattr name target);
  mret (MkApp (import_name app) (config app)
              (<[name := StoreRef target]> (attrs app))
              (after_request_funcs app) (blueprints app) (url_map app)).

(** The items [Config.from_mapping] takes from its positional argument:
    none for [None], the items of a dictionary; a number is not iterable
    and the characters of a string are not pairs. *)
Definition mapping_items (mapping : value) : exn + dict :=
  match mapping with
  | PyNone => inr []
  | PyDict items => inr items
  | PyStr EmptyString => inr []
  | PyStr (String _ _) => inl ValueError
  | PyBool _ | PyInt _ => inl TypeError
  end.

Definition kwargs_items (kwargs : list (string * value)) : dict :=
  (λ kv, (PyStr kv.1, kv.2)) <$> kwargs.

(** The settings of the CORS extension are those named [CORS_...]. *)
Definition cors_key (k : string) : bool := String.prefix "CORS_" k.

(** The settings of a configuration that the extension reads. *)
Definition cors_settings (cfg : gmap string value) : gmap string value :=
  filter (λ kv, cors_key kv.1 = true) cfg.

(** A configuration without any setting of the extension. *)
Definition cors_free (cfg : gmap string value) : Prop :=
  ∀ k, cors_key k = true → cfg !! k = None.

(** No item of the dictionary is a setting of the extension. *)
Definition plain_items (items : dict) : bool :=
  forallb (λ kv, match kv.1 with
                 | PyStr k => negb (cors_key k)
                 | _ => true
                 end) items.

Definition default_cors : cors_policy := CorsPolicy "/*" "*".

(** With no option and no setting the extension covers every route for
    every origin, and wraps the exception handlers. *)
Definition default_setup : cors_setup := CorsSetup default_cors true.

(** The exception handlers the extension rebinds on the instance. *)
Definition bind_handlers (setup : cors_setup) (a : gmap string attr)
  : gmap string attr :=
  if setup_intercept setup then
    <["handle_user_exception" := Wrapped "handle_user_exception"]>
      (<["handle_exception" := Wrapped "handle_exception"]> a)
  else a.

(** [app.register_blueprint(bp)]: a name can be registered once; the
    blueprint's rules are added to the URL map. *)
Definition register_blueprint (app : App) (bp : Blueprint) : M App :=
  _ ← record (CallRegisterBlueprint (bp_name bp));
  match blueprints app !! bp_name bp with
  | Some _ => raise ValueError
  | None =>
      mret (MkApp (import_name app) (config app) (attrs app)
                  (after_request_funcs app)
                  (<[bp_name bp := bp]> (blueprints app))
                  (url_map app ++ (mounted bp <$> bp_rules bp)))
  end.

(** The route every Flask application starts with. *)
Definition static_rule : url_rule := UrlRule "/static/<path:filename>" "static".

(** ** Sample instances

    A few of the framework's configuration defaults, a blueprint with two
    views, stand-ins for the two parameters taken from outside the
    repository, and two process states. *)

Definition flask_defaults : gmap string value :=
  <["DEBUG" := PyBool false]>
    (<["TESTING" := PyBool false]> {["SECRET_KEY" := PyNone]}).

Definition sample_bp : Blueprint :=
  MkBlueprint "api" [UrlRule "/api/graphs" "graphs"; UrlRule "/api/path" "path"].

Definition sample_isupper : string → bool := λ _, false.

Definition sample_parse : gmap string value → exn + cors_setup :=
  λ _, inl TypeError.

Definition boot : state := State ∅ [].

(** A process in which one store exists and holds a graph. *)
Definition serving : state := State {[0 := [(PyStr "alice", PyInt 1)]]} [].

Section Bootstrap.

(** [str.isupper] on a text that is not pure ASCII: it follows the
    Unicode character database, which is not reproduced here. *)
Variable unicode_isupper : string → bool.

(** The settings a new Flask application starts with. Whatever they
    are, none belongs to the CORS extension. *)
Variable builtin_settings : gmap string value.

(** What the CORS extension makes of a configuration that carries
    settings of its own, or the exception it raises on them; the
    extension's code is not in the repository. *)
Variable cors_parse : gmap string value → exn + cors_setup.

(** The blueprint exported by [app.routes]. *)
Variable api_bp : Blueprint.

(** [str.isupper()]: no cased character is lower case and there is at
    least one cased character. For an ASCII text the cased characters
    are the letters. *)
Definition isupper (s : string) : bool :=
  if ascii_only s then negb (has_lower s) && has_upper s
  else unicode_isupper s.
Arguments isupper : simpl never.

(** The loop of [Config.from_mapping]:
    [for key, value in items: if key.isupper(): self[key] = value].
    A key that is not a string has no [isupper]. *)
Fixpoint store_upper (items : dict) (cfg : gmap string value)
  : exn + gmap string value :=
  match items with
  | [] => inr cfg
  | (PyStr k, v) :: rest =>
      store_upper rest (if isupper k then <[k := v]> cfg else cfg)
  | _ :: _ => inl AttributeError
  end.

(** [app.config.from_mapping(mapping, **kwargs)]: updates the
    configuration with the items of [mapping], then with the keyword
    arguments, ignoring the keys that are not upper case. *)
Definition from_mapping (app : App) (mapping : value)
    (kwargs : list (string * value)) : M App :=
  _ ← record (CallFromMapping mapping kwargs);
  match mapping_items mapping with
  | inl e => raise e
  | inr items =>
      match store_upper (items ++ kwargs_items kwargs) (config app) with
      | inl e => raise e
      | inr cfg => mret (set_config app cfg)
      end
  end.

(** The options [CORS(app)] works with. The extension reads them from
    the [CORS_...] settings of the application's configuration when it
    is installed. Without any such setting they are its defaults. When
    the one setting is [CORS_RESOURCES] and holds a number, the resources
    cannot be parsed and the extension raises [ValueError]. Any other
    combination is left to [cors_parse]. *)
Definition cors_options (cfg : gmap string value) : exn + cors_setup :=
  match map_to_list (cors_settings cfg) with
  | [] => inr default_setup
  | [(k, PyInt _)] =>
      if String.eqb k "CORS_RESOURCES" then inl ValueError else cors_parse cfg
  | _ => cors_parse cfg
  end.

(** [CORS(app)]: reads the options, then installs the after-request
    function that adds the cross-origin headers and, unless told not
    to, rebinds the exception handlers of the instance. *)
Definition CORS (app : App) : M App :=
  _ ← record CallCORS;
  match cors_options (config app) with
  | inl e => raise e
  | inr setup =>
      mret (MkApp (import_name app) (config app)
                  (bind_handlers setup (attrs app))
                  (after_request_funcs app ++ [setup_policy setup])
                  (blueprints app) (url_map app))
  end.

(** The configuration of a new application: the framework's settings.
    Those of the CORS extension are flask_cors's own and are not among
    them, which the filter states. *)
Definition default_config : gmap string value :=
  filter (λ kv, cors_key kv.1 = false) builtin_settings.

(** [Flask(import_name)]: a new application with the default
    configuration, no extra attribute, no blueprint. *)
Definition Flask (name : string) : M App :=
  _ ← record (CallFlask name);
  mret (MkApp name default_config ∅ [] ∅ [static_rule]).

(** [__name__] in the package [app]. *)
Definition module_name : string := "app".

Definition create_app (test_config : value) : M App :=
  app ← Flask module_name;
  (* dict to store user's graphs *)
  user_graphs ← new_dict;
  app ← setattr app "user_graphs" user_graphs;
  (* load default config *)
  app ← from_mapping app PyNone [("SECRET_KEY", PyStr "dev")];
  (* override default config with test config if provided *)
  app ← (if truthy test_config
         then from_mapping app test_config []
         else mret app);
  (* enable CORS for frontend requests *)
  app ← CORS app;
  (* register blueprints *)
  app ← register_blueprint app api_bp;
  mret app.

(** *** What a run is expected to produce *)

(** The configuration after the defaults are loaded. *)
Definition dev_config : gmap string value :=
  <["SECRET_KEY" := PyStr "dev"]> default_config.

(** The configuration after the optional merge, or the exception the
    merge raises. *)
Definition merged_config (test_config : value) : exn + gmap string value :=
  if truthy test_config then
    match mapping_items test_config with
    | inl e => inl e
    | inr items => store_upper items dev_config
    end
  else inr dev_config.

(** The instance, given its final configuration, the options of the
    CORS extension and the location of its store. *)
Definition built (cfg : gmap string value) (setup : cors_setup) (l : loc) : App :=
  MkApp module_name cfg
        (bind_handlers setup {["user_graphs" := StoreRef l]})
        [setup_policy setup]
        {[bp_name api_bp := api_bp]}
        (static_rule :: (mounted api_bp <$> bp_rules api_bp)).

(** The framework operations of one run, in order. *)
Definition expected_calls (test_config : value) (l : loc) : list call :=
  [CallFlask module_name; CallSetattr "user_graphs" l;
   CallFromMapping PyNone [("SECRET_KEY", PyStr "dev")]]
  ++ (if truthy test_config then [CallFromMapping test_config []] else [])
  ++ [CallCORS; CallRegisterBlueprint (bp_name api_bp)].

(** The overlays the merge accepts: a falsy value (the merge is
    skipped) or a dictionary whose keys are all strings. *)
Definition overlay_ok (test_config : value) : bool :=
  negb (truthy test_config)
  || match test_config with PyDict items => str_keys items | _ => false end.

(** The overlay brings no setting of the CORS extension. *)
Definition plain_overlay (test_config : value) : bool :=
  match test_config with
  | PyDict items => plain_items items
  | _ => true
  end.

(** The overlays with which every step goes through: the merge takes
    the overlay and the CORS extension takes the merged configuration. *)
Definition accepted (test_config : value) : Prop :=
  ∃ cfg setup,
    merged_config test_config = inr cfg ∧ cors_options cfg = inr setup.

(** A computation that leaves the heap as it found it. *)
Definition heap_stable {A} (m : M A) : Prop :=
  ∀ s, match m s with Return _ s' => heap s' = heap s | Raise _ => True end.

(** The entry an item of the overlay contributes to the configuration:
    the items whose key is an upper-case string are stored. *)
Definition upper_entry (kv : value * value) : option (string * value) :=
  match kv.1 with
  | PyStr k => if isupper k then Some (k, kv.2) else None
  | _ => None
  end.

Definition upper_entries (items : dict) : list (string * value) :=
  omap upper_entry items.

(** The exception the merge raises for an overlay it does not accept. *)
Definition merge_error (test_config : value) : exn :=
  match test_config with
  | PyDict _ => AttributeError
  | PyStr _ => ValueError
  | _ => TypeError
  end.

(** ** The merge loop *)

Lemma store_upper_total items cfg :
  str_keys items = true → ∃ cfg', store_upper items cfg = inr cfg'.
Proof.
  revert cfg. induction items as [|[k v] items IH]; intros cfg Hk.
  - by exists cfg.
  - simpl in Hk. apply andb_true_iff in Hk as [Hs Hk].
    destruct k; try discriminate. simpl. by apply IH.
Qed.

Lemma store_upper_str_keys items cfg cfg' :
  store_upper items cfg = inr cfg' → str_keys items = true.
Proof.
  revert cfg. induction items as [|[k v] items IH]; intros cfg; [done|].
  destruct k; simpl; try discriminate. apply IH.
Qed.

(** A key the items do not mention keeps its setting. *)
Lemma store_upper_frame items cfg cfg' k :
  store_upper items cfg = inr cfg' →
  PyStr k ∉ items.*1 → cfg' !! k = cfg !! k.
Proof.
  revert cfg. induction items as [|[k0 v] items IH]; intros cfg Hrun Hk.
  - by injection Hrun as <-.
  - destruct k0; simpl in Hrun; try discriminate.
    rewrite fmap_cons in Hk. apply not_elem_of_cons in Hk as [Hne Hk].
    rewrite (IH _ Hrun Hk).
    destruct (isupper s); [|done].
    apply lookup_insert_ne. intros ->. by apply Hne.
Qed.

(** An upper-case key takes the value the dictionary gives it. *)
Lemma store_upper_lookup items cfg cfg' k v :
  store_upper items cfg = inr cfg' →
  dict_wf items → (PyStr k, v) ∈ items → isupper k = true →
  cfg' !! k = Some v.
Proof.
  revert cfg. induction items as [|[k0 v0] items IH]; intros cfg Hrun Hwf Hin Hup.
  - by apply elem_of_nil in Hin.
  - unfold dict_wf in Hwf. rewrite fmap_cons in Hwf.
    apply NoDup_cons in Hwf as [Hfresh Hwf].
    apply elem_of_cons in Hin as [Heq | Hin].
    + injection Heq as <- <-. simpl in Hrun, Hfresh. rewrite Hup in Hrun.
      rewrite (store_upper_frame _ _ _ _ Hrun Hfresh).
      apply lookup_insert_eq.
    + destruct k0; simpl in Hrun; try discriminate. eauto.
Qed.

(** ** The settings of the CORS extension *)

Lemma default_config_free : cors_free default_config.
Proof.
  intros k Hk. apply map_lookup_filter_None. right.
  intros v _. simpl. congruence.
Qed.

Lemma dev_config_free : cors_free dev_config.
Proof.
  intros k Hk. unfold dev_config.
  rewrite lookup_insert_ne; [by apply default_config_free|].
  by intros <-.
Qed.

Lemma cors_settings_free cfg : cors_free cfg → cors_settings cfg = ∅.
Proof.
  intros Hfree. apply map_empty. intros k.
  apply map_lookup_filter_None.
  destruct (cors_key k) eqn:Hk.
  - left. by apply Hfree.
  - right. intros v _. simpl. congruence.
Qed.

Lemma cors_options_free cfg :
  cors_free cfg → cors_options cfg = inr default_setup.
Proof.
  intros Hfree. unfold cors_options.
  by rewrite (cors_settings_free _ Hfree), map_to_list_empty.
Qed.

(** One setting of the extension over a configuration that had none. *)
Lemma cors_settings_insert cfg k v :
  cors_free cfg → cors_key k = true →
  cors_settings (<[k := v]> cfg) = {[k := v]}.
Proof.
  intros Hfree Hk. unfold cors_settings.
  rewrite map_filter_insert_True by done.
  fold (cors_settings cfg). rewrite (cors_settings_free _ Hfree).
  apply insert_empty.
Qed.

Lemma store_upper_free items cfg cfg' :
  store_upper items cfg = inr cfg' →
  plain_items items = true → cors_free cfg → cors_free cfg'.
Proof.
  revert cfg. induction items as [|[k0 v] items IH]; intros cfg Hrun Hplain Hfree.
  - by injection Hrun as <-.
  - simpl in Hplain. apply andb_true_iff in Hplain as [Hk0 Hplain].
    destruct k0; simpl in Hrun; try discriminate.
    apply (IH _ Hrun Hplain).
    destruct (isupper s); [|done].
    intros k Hk. rewrite lookup_insert_ne; [by apply Hfree|].
    intros <-. simpl in Hk0. by rewrite Hk in Hk0.
Qed.

Lemma store_upper_app items1 items2 cfg :
  store_upper (items1 ++ items2) cfg =
    match store_upper items1 cfg with
    | inl e => inl e
    | inr cfg1 => store_upper items2 cfg1
    end.
Proof.
  revert cfg. induction items1 as [|[k v] items1 IH]; intros cfg; [done|].
  destruct k; simpl; auto.
Qed.

(** ** Symbolic execution of the factory *)

Lemma merged_config_dict items :
  merged_config (PyDict items) = store_upper items dev_config.
Proof. unfold merged_config. by destruct items. Qed.

Lemma merged_config_ok test_config :
  overlay_ok test_config = true → ∃ cfg, merged_config test_config = inr cfg.
Proof.
  unfold overlay_ok, merged_config. intros Hok.
  destruct (truthy test_config) eqn:Ht; [|by eexists].
  destruct test_config; try discriminate. simpl in *.
  by apply store_upper_total.
Qed.

Lemma merged_config_inr test_config cfg :
  merged_config test_config = inr cfg → overlay_ok test_config = true.
Proof.
  unfold overlay_ok, merged_config.
  destruct (truthy test_config) eqn:Ht; [|done]. simpl.
  destruct test_config as [|b|n|[|c str]|items]; simpl; try discriminate.
  apply store_upper_str_keys.
Qed.

Lemma merged_config_free test_config cfg :
  merged_config test_config = inr cfg →
  plain_overlay test_config = true → cors_free cfg.
Proof.
  unfold merged_config. intros Hcfg Hplain.
  destruct (truthy test_config).
  - destruct test_config as [|b|n|[|c str]|items]; simpl in *;
      try discriminate;
      try (injection Hcfg as <-; apply dev_config_free).
    by apply (store_upper_free items dev_config); [| |apply dev_config_free].
  - injection Hcfg as <-. apply dev_config_free.
Qed.

(** An overlay the merge takes and that brings no setting of the CORS
    extension goes through. *)
Lemma accepted_plain test_config :
  overlay_ok test_config = true → plain_overlay test_config = true →
  accepted test_config.
Proof.
  intros Hok Hplain. destruct (merged_config_ok _ Hok) as [cfg Hcfg].
  exists cfg, default_setup. split; [done|].
  apply cors_options_free. by apply (merged_config_free test_config).
Qed.

Lemma create_app_run test_config s :
  let l := fresh (dom (heap s)) in
  create_app test_config s =
    match merged_config test_config with
    | inl e => Raise e
    | inr cfg =>
        match cors_options cfg with
        | inl e => Raise e
        | inr setup =>
            Return (built cfg setup l)
                   (State (<[l := []]> (heap s))
                          (calls s ++ expected_calls test_config l))
        end
    end.
Proof.
  intros l. unfold create_app, merged_config, expected_calls.
  unfold Flask, new_dict, setattr, CORS, register_blueprint.
  unfold mbind, M_bind, record, mret, M_ret, raise. simpl.
  fold l. destruct (truthy test_config); simpl.
  - unfold from_mapping.
    unfold mbind, M_bind, record, mret, M_ret, raise. simpl.
    destruct (mapping_items test_config) as [e|items]; [done|].
    rewrite app_nil_r. fold dev_config.
    destruct (store_upper items dev_config) as [e|cfg]; [done|]. simpl.
    destruct (cors_options cfg) as [e|setup]; [done|]. simpl.
    rewrite lookup_empty. unfold built.
    rewrite !insert_empty, <- !app_assoc. done.
  - fold dev_config. destruct (cors_options dev_config) as [e|setup]; [done|].
    simpl. rewrite lookup_empty. unfold built.
    rewrite !insert_empty, <- !app_assoc. done.
Qed.

(** The runs that return are those of the accepted overlays. *)
Lemma create_app_returns_accepted test_config s :
  (∃ app s', create_app test_config s = Return app s') ↔ accepted test_config.
Proof.
  rewrite create_app_run. unfold accepted. split.
  - intros (app & s' & Hrun).
    destruct (merged_config test_config) as [e|cfg]; [done|].
    destruct (cors_options cfg) as [e|setup] eqn:Hopt; [done|]. eauto.
  - intros (cfg & setup & -> & ->). eauto.
Qed.

Lemma isupper_SECRET_KEY : isupper "SECRET_KEY" = true.
Proof. reflexivity. Qed.

Lemma isupper_CORS_RESOURCES : isupper "CORS_RESOURCES" = true.
Proof. reflexivity. Qed.

(** The merged configuration of an overlay whose one setting of the
    CORS extension is a number for [CORS_RESOURCES]. *)
Lemma cors_settings_resources items n cfg :
  store_upper items dev_config = inr cfg →
  dict_wf items →
  (PyStr "CORS_RESOURCES", PyInt n) ∈ items →
  (∀ k v, (PyStr k, v) ∈ items → cors_key k = true → k = "CORS_RESOURCES") →
  cors_settings cfg = {["CORS_RESOURCES" := PyInt n]}.
Proof.
  intros Hcfg Hwf Hin Honly. apply map_eq. intros k.
  destruct (decide (k = "CORS_RESOURCES")) as [->|Hne].
  - rewrite lookup_singleton_eq. apply map_lookup_filter_Some. split; [|done].
    apply (store_upper_lookup items dev_config); auto using isupper_CORS_RESOURCES.
  - rewrite lookup_singleton_ne by done. apply map_lookup_filter_None.
    destruct (cors_key k) eqn:Hk; [left|right; intros v _; simpl; congruence].
    rewrite (store_upper_frame items dev_config cfg k Hcfg).
    + by apply dev_config_free.
    + intros ([k' v] & Hkey & Hitem)%list_elem_of_fmap. simpl in Hkey. subst k'.
      apply Hne. by apply (Honly k v).
Qed.

Lemma create_app_resources_number items n s :
  str_keys items = true → dict_wf items →
  (PyStr "CORS_RESOURCES", PyInt n) ∈ items →
  (∀ k v, (PyStr k, v) ∈ items → cors_key k = true → k = "CORS_RESOURCES") →
  create_app (PyDict items) s = Raise ValueError.
Proof.
  intros Hkeys Hwf Hin Honly. rewrite create_app_run, merged_config_dict.
  destruct (store_upper_total items dev_config Hkeys) as [cfg Hcfg].
  rewrite Hcfg. unfold cors_options.
  rewrite (cors_settings_resources items n cfg Hcfg Hwf Hin Honly).
  by rewrite map_to_list_singleton.
Qed.

(** ** The configuration of the instance *)

(** C1. With no test configuration, [create_app] returns an instance
    whose [SECRET_KEY] setting is the placeholder ['dev']. *)
Theorem create_app_default_secret_key s :
  ∃ app s',
    create_app PyNone s = Return app s' ∧
    config app !! "SECRET_KEY" = Some (PyStr "dev").
Proof.
  rewrite create_app_run. simpl.
  rewrite (cors_options_free _ dev_config_free).
  eexists _, _. split; [done|]. apply lookup_insert_eq.
Qed.

(** C2, as amended. When the test configuration is a mapping with a
    [SECRET_KEY] entry, an instance that [create_app] returns has the
    mapping's value for [SECRET_KEY]: the entry of the overlay replaces
    the default one. An instance is returned whenever the mapping holds
    no setting of the CORS extension; when none is returned, the
    exception is the one the extension raised on the merged
    configuration. *)
Theorem create_app_overlay_secret_key items v s :
  str_keys items = true → dict_wf items →
  (PyStr "SECRET_KEY", v) ∈ items →
  (∀ app s', create_app (PyDict items) s = Return app s' →
             config app !! "SECRET_KEY" = Some v) ∧
  (plain_items items = true →
   ∃ app s', create_app (PyDict items) s = Return app s') ∧
  (∀ e, create_app (PyDict items) s = Raise e →
        ∃ cfg, cfg !! "SECRET_KEY" = Some v ∧ cors_options cfg = inl e).
Proof.
  intros Hkeys Hwf Hin. rewrite create_app_run, merged_config_dict.
  destruct (store_upper_total items dev_config Hkeys) as [cfg Hcfg].
  rewrite Hcfg.
  assert (cfg !! "SECRET_KEY" = Some v) as Hv.
  { apply (store_upper_lookup items dev_config); auto using isupper_SECRET_KEY. }
  split; [|split].
  - intros app s' Hrun. destruct (cors_options cfg); [done|].
    by injection Hrun as <- _.
  - intros Hplain.
    rewrite (cors_options_free cfg); [by eexists _, _|].
    by apply (store_upper_free items dev_config); [| |apply dev_config_free].
  - intros e Hrun. exists cfg. split; [done|].
    destruct (cors_options cfg); [congruence|done].
Qed.

(** C3, as amended. When the test configuration is a mapping without a
    [SECRET_KEY] entry, an instance that [create_app] returns keeps
    ['dev'], and every setting whose key the mapping does not mention is
    the one the defaults gave. An instance is returned whenever the
    mapping holds no setting of the CORS extension. *)
Theorem create_app_partial_overlay items s :
  str_keys items = true →
  PyStr "SECRET_KEY" ∉ items.*1 →
  (∀ app s', create_app (PyDict items) s = Return app s' →
             config app !! "SECRET_KEY" = Some (PyStr "dev") ∧
             ∀ k, PyStr k ∉ items.*1 → config app !! k = dev_config !! k) ∧
  (plain_items items = true →
   ∃ app s', create_app (PyDict items) s = Return app s').
Proof.
  intros Hkeys Hout. rewrite create_app_run, merged_config_dict.
  destruct (store_upper_total items dev_config Hkeys) as [cfg Hcfg].
  rewrite Hcfg. split.
  - intros app s' Hrun. destruct (cors_options cfg); [done|].
    injection Hrun as <- _. simpl.
    assert (∀ k, PyStr k ∉ items.*1 → cfg !! k = dev_config !! k) as Hframe.
    { intros k Hk. by apply (store_upper_frame items). }
    split; [|done]. rewrite (Hframe _ Hout). apply lookup_insert_eq.
  - intros Hplain.
    rewrite (cors_options_free cfg); [by eexists _, _|].
    by apply (store_upper_free items dev_config); [| |apply dev_config_free].
Qed.

(** ** The store of the users' graphs *)

(** The one attribute of a built instance that refers to a store. *)
Lemma built_store_attr cfg setup l name l' :
  attrs (built cfg setup l) !! name = Some (StoreRef l') →
  name = "user_graphs" ∧ l' = l.
Proof.
  unfold built, bind_handlers. simpl.
  destruct (setup_intercept setup).
  - rewrite !lookup_insert. repeat case_decide; try discriminate.
    rewrite lookup_singleton. case_decide; [|discriminate].
    intros [= ->]. by subst.
  - rewrite lookup_singleton. case_decide; [|discriminate].
    intros [= ->]. by subst.
Qed.


Lemma built_user_graphs cfg setup l :
  attrs (built cfg setup l) !! "user_graphs" = Some (StoreRef l).
Proof.
  unfold built, bind_handlers. simpl.
  destruct (setup_intercept setup).
  - rewrite !lookup_insert_ne by done. apply lookup_singleton_eq.
  - apply lookup_singleton_eq.
Qed.

(** C4. A returned instance has one attribute bound to a store,
    [user_graphs], and that dictionary is empty at creation. A second
    call, made after the first instance's store was updated in place,
    allocates another dictionary: it is empty, and an update through
    either reference leaves the other store as it was. *)
Theorem create_app_stores_distinct tc1 tc2 f s :
  accepted tc1 → accepted tc2 →
  ∃ app1 s1 l1 app2 s2 l2,
    create_app tc1 s = Return app1 s1 ∧
    (∀ name l, attrs app1 !! name = Some (StoreRef l) ↔
               name = "user_graphs" ∧ l = l1) ∧
    heap s1 !! l1 = Some [] ∧
    create_app tc2 (store_update l1 f s1) = Return app2 s2 ∧
    (∀ name l, attrs app2 !! name = Some (StoreRef l) ↔
               name = "user_graphs" ∧ l = l2) ∧
    heap s2 !! l2 = Some [] ∧
    l1 ≠ l2 ∧ heap s2 !! l1 = Some (f []) ∧
    ∀ g, heap (store_update l1 g s2) !! l2 = Some [] ∧
         heap (store_update l2 g s2) !! l1 = Some (f []).
Proof.
  intros (cfg1 & setup1 & Hcfg1 & Hopt1) (cfg2 & setup2 & Hcfg2 & Hopt2).
  set (l1 := fresh (dom (heap s))).
  set (s1 := State (<[l1 := []]> (heap s)) (calls s ++ expected_calls tc1 l1)).
  set (l2 := fresh (dom (heap (store_update l1 f s1)))).
  assert (l1 ≠ l2) as Hne.
  { intros Heq. apply (is_fresh (dom (heap (store_update l1 f s1)))).
    fold l2. rewrite <- Heq. simpl.
    rewrite dom_alter_L, dom_insert_L. set_solver. }
  assert (∀ cfg setup l name l',
            attrs (built cfg setup l) !! name = Some (StoreRef l') ↔
            name = "user_graphs" ∧ l' = l) as Hattr.
  { intros cfg setup l name l'. split; [apply built_store_attr|].
    intros [-> ->]. apply built_user_graphs. }
  exists (built cfg1 setup1 l1), s1, l1, (built cfg2 setup2 l2).
  eexists. exists l2.
  split; [rewrite create_app_run, Hcfg1, Hopt1; done|].
  split; [apply Hattr|]. split; [apply lookup_insert_eq|].
  split; [rewrite create_app_run, Hcfg2, Hopt2; done|].
  split; [apply Hattr|]. split; [apply lookup_insert_eq|].
  split; [done|]. simpl.
  assert (<[l2:=[]]> (alter f l1 (<[l1:=[]]> (heap s))) !! l1 = Some (f [])) as H1.
  { rewrite lookup_insert_ne by done.
    rewrite lookup_alter_eq, lookup_insert_eq. done. }
  split; [done|]. intros g. split.
  - rewrite lookup_alter_ne by done. apply lookup_insert_eq.
  - rewrite lookup_alter_ne by done. done.
Qed.

(** ** The construction sequence *)


(** C6, as amended. [create_app] validates nothing and catches
    nothing. It returns an instance when the overlay is falsy (the merge
    is skipped) and when it is a mapping whose keys are all strings and
    that holds no setting of the CORS extension, whatever the values. *)
Theorem create_app_completes test_config s :
  overlay_ok test_config = true → plain_overlay test_config = true →
  ∃ app s', create_app test_config s = Return app s'.
Proof.
  intros Hok Hplain. apply create_app_returns_accepted.
  by apply accepted_plain.
Qed.


(** C8. A falsy test configuration, the empty mapping in particular,
    is treated as no test configuration: the run is the same, instance
    and final state. *)
Theorem create_app_falsy_overlay test_config s :
  truthy test_config = false →
  create_app test_config s = create_app PyNone s.
Proof.
  intros Hfalsy. rewrite !create_app_run.
  unfold merged_config, expected_calls. by rewrite Hfalsy.
Qed.

(** ** Frame properties of the steps *)

Lemma bind_run {A B} (m : M A) (k : A → M B) s :
  (m ≫= k) s =
    match m s with Return a s' => k a s' | Raise e => Raise e end.
Proof. reflexivity. Qed.

Lemma heap_stable_ret {A} (a : A) : heap_stable (mret a).
Proof. by intros s. Qed.

Lemma heap_stable_raise {A} e : heap_stable (@raise A e).
Proof. by intros s. Qed.

Lemma heap_stable_record c : heap_stable (record c).
Proof. by intros s. Qed.

Lemma heap_stable_bind {A B} (m : M A) (k : A → M B) :
  heap_stable m → (∀ a, heap_stable (k a)) → heap_stable (m ≫= k).
Proof.
  intros Hm Hk s. rewrite bind_run. specialize (Hm s).
  destruct (m s) as [a s1|e]; [|done].
  specialize (Hk a s1). destruct (k a s1); [congruence|done].
Qed.

Lemma from_mapping_heap_stable app mapping kwargs :
  heap_stable (from_mapping app mapping kwargs).
Proof.
  apply heap_stable_bind; [apply heap_stable_record|]. intros _.
  destruct (mapping_items mapping); [apply heap_stable_raise|].
  destruct (store_upper _ _); [apply heap_stable_raise|apply heap_stable_ret].
Qed.

Lemma heap_stable_CORS app : heap_stable (CORS app).
Proof.
  apply heap_stable_bind; [apply heap_stable_record|]. intros _.
  destruct (cors_options (config app));
    [apply heap_stable_raise|apply heap_stable_ret].
Qed.

Lemma heap_stable_register_blueprint app bp :
  heap_stable (register_blueprint app bp).
Proof.
  apply heap_stable_bind; [apply heap_stable_record|]. intros _.
  destruct (blueprints app !! bp_name bp);
    [apply heap_stable_raise|apply heap_stable_ret].
Qed.

(** C9. The steps that follow the attachment of the store (the two
    configuration updates, the installation of CORS, the registration
    of the blueprint) do not write to the heap, so for every overlay
    the store of a returned instance is the empty dictionary allocated
    for it, the rest of the heap being as before the call. A run that
    returns nothing is one whose overlay a step did not accept. *)
Theorem create_app_store_frame :
  (∀ app mapping kwargs, heap_stable (from_mapping app mapping kwargs)) ∧
  (∀ app, heap_stable (CORS app)) ∧
  (∀ app, heap_stable (register_blueprint app api_bp)) ∧
  ∀ test_config s,
    match create_app test_config s with
    | Return app s' =>
        ∃ l, attrs app !! "user_graphs" = Some (StoreRef l) ∧
             heap s' !! l = Some [] ∧
             heap s' = <[l := []]> (heap s)
    | Raise _ => ¬ accepted test_config
    end.
Proof.
  split; [apply from_mapping_heap_stable|].
  split; [apply heap_stable_CORS|].
  split; [intros; apply heap_stable_register_blueprint|].
  intros test_config s.
  destruct (create_app test_config s) as [app s'|e] eqn:Hrun.
  - pose proof Hrun as Hshape. rewrite create_app_run in Hshape.
    destruct (merged_config test_config) as [e|cfg]; [done|].
    destruct (cors_options cfg) as [e|setup]; [done|].
    injection Hshape as <- _. exists (fresh (dom (heap s))).
    split; [apply built_user_graphs|].
    revert Hrun. unfold create_app.
    rewrite bind_run. unfold Flask at 1. rewrite bind_run. simpl.
    rewrite bind_run. simpl. rewrite bind_run. unfold setattr at 1.
    rewrite bind_run. simpl.
    match goal with |- ?m ?s0 = _ → _ =>
      assert (heap_stable m) as Hstable; [|specialize (Hstable s0)] end.
    { apply heap_stable_bind; [apply from_mapping_heap_stable|]. intros a1.
      apply heap_stable_bind.
      { destruct (truthy test_config);
          [apply from_mapping_heap_stable|apply heap_stable_ret]. }
      intros a2. apply heap_stable_bind; [apply heap_stable_CORS|]. intros a3.
      apply heap_stable_bind; [apply heap_stable_register_blueprint|].
      intros a4. apply heap_stable_ret. }
    intros Hrun. rewrite Hrun in Hstable. simpl in Hstable.
    rewrite Hstable. split; [apply lookup_insert_eq|done].
  - intros Hacc. apply (create_app_returns_accepted _ s) in Hacc
      as (app & s' & Hret). congruence.
Qed.

(** ** More on the merge *)

Lemma upper_entries_keys items k :
  k ∈ (upper_entries items).*1 → PyStr k ∈ items.*1.
Proof.
  intros ([k' v] & -> & Hin)%list_elem_of_fmap.
  apply list_elem_of_omap in Hin as ([k0 v0] & Hin & Hentry).
  apply list_elem_of_fmap. exists (k0, v0). split; [|done].
  unfold upper_entry in Hentry. simpl in *.
  destruct k0; try discriminate. destruct (isupper s); [|discriminate].
  by injection Hentry as -> _.
Qed.

Lemma upper_entries_NoDup items :
  dict_wf items → NoDup (upper_entries items).*1.
Proof.
  unfold dict_wf. induction items as [|[k v] items IH]; intros Hwf.
  - constructor.
  - rewrite fmap_cons in Hwf. apply NoDup_cons in Hwf as [Hfresh Hwf].
    unfold upper_entries. simpl. unfold upper_entry at 1. simpl.
    destruct k; try by apply IH.
    destruct (isupper s); [|by apply IH].
    rewrite fmap_cons. apply NoDup_cons. split; [|by apply IH].
    intros Hin%upper_entries_keys. by apply Hfresh.
Qed.

(** The loop amounts to a dictionary union: the upper-case entries of
    the items, over the configuration it started from. *)
Lemma store_upper_union items cfg :
  str_keys items = true → dict_wf items →
  store_upper items cfg = inr (list_to_map (upper_entries items) ∪ cfg).
Proof.
  unfold dict_wf. revert cfg.
  induction items as [|[k v] items IH]; intros cfg Hkeys Hwf.
  - simpl. by rewrite (left_id_L ∅ (∪)).
  - simpl in Hkeys. apply andb_true_iff in Hkeys as [Hstr Hkeys].
    rewrite fmap_cons in Hwf. apply NoDup_cons in Hwf as [Hfresh Hwf].
    destruct k; try discriminate. simpl.
    rewrite (IH _ Hkeys Hwf). f_equal.
    unfold upper_entries. simpl. unfold upper_entry at 2. simpl.
    destruct (isupper s); [|done].
    rewrite list_to_map_cons, <- insert_union_l.
    symmetry. apply insert_union_r.
    apply not_elem_of_list_to_map_1.
    intros Hin%upper_entries_keys. by apply Hfresh.
Qed.

(** A key that is not upper case is never written. *)
Lemma store_upper_skips items cfg cfg' k :
  store_upper items cfg = inr cfg' → isupper k = false →
  cfg' !! k = cfg !! k.
Proof.
  revert cfg. induction items as [|[k0 v] items IH]; intros cfg Hrun Hk.
  - by injection Hrun as <-.
  - destruct k0; simpl in Hrun; try discriminate.
    rewrite (IH _ Hrun Hk).
    destruct (isupper s) eqn:Hs; [|done].
    apply lookup_insert_ne. intros ->. congruence.
Qed.

(** The keys of the configuration after the loop. *)
Lemma store_upper_dom items cfg cfg' :
  store_upper items cfg = inr cfg' →
  dom cfg' = dom cfg ∪ list_to_set (upper_entries items).*1.
Proof.
  revert cfg. induction items as [|[k0 v] items IH]; intros cfg Hrun.
  - injection Hrun as <-. simpl. by rewrite (right_id_L ∅ (∪)).
  - destruct k0; simpl in Hrun; try discriminate.
    rewrite (IH _ Hrun).
    unfold upper_entries. simpl. unfold upper_entry at 2. simpl.
    destruct (isupper s); [|done].
    rewrite fmap_cons, dom_insert_L. simpl.
    by rewrite (assoc_L (∪)), (comm_L (∪) (dom cfg)).
Qed.

Lemma store_upper_raises items cfg :
  str_keys items = false → store_upper items cfg = inl AttributeError.
Proof.
  revert cfg. induction items as [|[k v] items IH]; intros cfg Hkeys.
  - discriminate.
  - destruct k; try done. simpl in *. by apply IH.
Qed.

Lemma str_keys_Permutation items1 items2 :
  items1 ≡ₚ items2 → str_keys items1 = str_keys items2.
Proof.
  unfold str_keys. induction 1 as [|kv l1 l2 _ IH|kv1 kv2 l|l1 l2 l3 _ IH1 _ IH2]; simpl.
  - done.
  - by rewrite IH.
  - by rewrite !andb_assoc, (andb_comm (is_str kv2.1)).
  - congruence.
Qed.

Lemma dev_config_lookup_ne k :
  k ≠ "SECRET_KEY" → dev_config !! k = default_config !! k.
Proof. intros Hne. by apply lookup_insert_ne. Qed.

(** The configuration of the instance an accepted mapping yields. *)
Lemma create_app_accepted_dict items s :
  accepted (PyDict items) →
  ∃ cfg setup s',
    store_upper items dev_config = inr cfg ∧
    str_keys items = true ∧
    create_app (PyDict items) s
      = Return (built cfg setup (fresh (dom (heap s)))) s'.
Proof.
  intros (cfg & setup & Hcfg & Hopt). exists cfg, setup.
  rewrite create_app_run, Hcfg, Hopt. eexists. split; [|split; [|done]].
  - by rewrite <- merged_config_dict.
  - rewrite merged_config_dict in Hcfg. by apply store_upper_str_keys in Hcfg.
Qed.

(** X1. An entry of the test configuration whose key is not upper case
    is dropped: on the returned instance that setting is what the
    framework's defaults made it, whatever the overlay says. *)
Theorem create_app_ignores_non_upper_keys items k s :
  accepted (PyDict items) → isupper k = false →
  ∃ app s',
    create_app (PyDict items) s = Return app s' ∧
    config app !! k = default_config !! k.
Proof.
  intros (cfg & setup & s' & Hcfg & _ & ->)%(create_app_accepted_dict _ s) Hk.
  eexists _, _. split; [done|]. simpl.
  rewrite (store_upper_skips _ _ _ _ Hcfg Hk).
  apply dev_config_lookup_ne. intros ->.
  by rewrite isupper_SECRET_KEY in Hk.
Qed.

(** X2. Every upper-case key of the test configuration is a setting of
    the returned instance, with the overlay's value, be it a default
    that is replaced or a setting that is new. *)
Theorem create_app_overlay_setting items k v s :
  accepted (PyDict items) → dict_wf items →
  (PyStr k, v) ∈ items → isupper k = true →
  ∃ app s',
    create_app (PyDict items) s = Return app s' ∧
    config app !! k = Some v.
Proof.
  intros (cfg & setup & s' & Hcfg & _ & ->)%(create_app_accepted_dict _ s).
  intros Hwf Hin Hk. eexists _, _. split; [done|]. simpl.
  by apply (store_upper_lookup items dev_config).
Qed.

(** X3. The configuration of the returned instance is the union of the
    overlay's upper-case entries with the defaults (['dev'] for
    [SECRET_KEY] over the framework's), the overlay having precedence. *)
Theorem create_app_config_union items s :
  accepted (PyDict items) → dict_wf items →
  ∃ app s',
    create_app (PyDict items) s = Return app s' ∧
    config app =
      list_to_map (upper_entries items)
      ∪ <["SECRET_KEY" := PyStr "dev"]> default_config.
Proof.
  intros (cfg & setup & s' & Hcfg & Hkeys & ->)%(create_app_accepted_dict _ s).
  intros Hwf. eexists _, _. split; [done|]. simpl.
  rewrite (store_upper_union _ _ Hkeys Hwf) in Hcfg. by injection Hcfg as <-.
Qed.

(** X4. The settings of the returned instance are [SECRET_KEY], the
    framework's defaults and the overlay's upper-case keys: no setting
    is removed and no other one is added. *)
Theorem create_app_config_keys items s :
  accepted (PyDict items) →
  ∃ app s',
    create_app (PyDict items) s = Return app s' ∧
    dom (config app) =
      {["SECRET_KEY"]} ∪ dom default_config
      ∪ list_to_set (upper_entries items).*1.
Proof.
  intros (cfg & setup & s' & Hcfg & _ & ->)%(create_app_accepted_dict _ s).
  eexists _, _. split; [done|]. simpl.
  rewrite (store_upper_dom _ _ _ Hcfg). unfold dev_config.
  by rewrite dom_insert_L.
Qed.

(** X5. An overlay the merge does not accept makes [create_app] raise,
    and the exception tells its shape: [AttributeError] for a mapping
    with a key that is not a string, [ValueError] for a non-empty
    string, [TypeError] for a non-zero number or [True]. *)
Theorem create_app_raises test_config s :
  overlay_ok test_config = false →
  create_app test_config s = Raise (merge_error test_config).
Proof.
  intros Hbad. rewrite create_app_run.
  unfold overlay_ok in Hbad. apply orb_false_iff in Hbad as [Ht Hshape].
  apply negb_false_iff in Ht. unfold merged_config. rewrite Ht.
  destruct test_config as [|b|n|[|c str]|items]; simpl in *; try done.
  by rewrite (store_upper_raises _ _ Hshape).
Qed.

(** X6. The store of a new instance is a dictionary that did not exist
    before the call, and the call leaves every dictionary that existed
    as it was. *)
Theorem create_app_allocates_fresh test_config s :
  accepted test_config →
  ∃ app s' l,
    create_app test_config s = Return app s' ∧
    attrs app !! "user_graphs" = Some (StoreRef l) ∧
    heap s !! l = None ∧
    ∀ l' d, heap s !! l' = Some d → heap s' !! l' = Some d.
Proof.
  intros (cfg & setup & Hcfg & Hopt).
  rewrite create_app_run, Hcfg, Hopt.
  assert (heap s !! fresh (dom (heap s)) = None) as Hfresh.
  { apply not_elem_of_dom, is_fresh. }
  eexists _, _, _. split; [done|].
  split; [apply built_user_graphs|]. split; [done|].
  intros l' d Hl'. simpl. rewrite lookup_insert_ne; [done|].
  intros <-. congruence.
Qed.

(** X7. The order in which the test configuration lists its entries
    does not matter: two mappings with the same entries give the same
    instance. *)
Theorem create_app_overlay_order items1 items2 s :
  items1 ≡ₚ items2 →
  accepted (PyDict items1) → dict_wf items1 →
  ∃ app s1 s2,
    create_app (PyDict items1) s = Return app s1 ∧
    create_app (PyDict items2) s = Return app s2.
Proof.
  intros Hperm (cfg & setup & Hcfg & Hopt) Hwf1.
  rewrite merged_config_dict in Hcfg.
  pose proof (store_upper_str_keys _ _ _ Hcfg) as Hkeys1.
  assert (str_keys items2 = true) as Hkeys2.
  { by rewrite <- (str_keys_Permutation _ _ Hperm). }
  assert (dict_wf items2) as Hwf2.
  { unfold dict_wf in *. by rewrite <- Hperm. }
  assert (store_upper items2 dev_config = inr cfg) as Hcfg2.
  { rewrite (store_upper_union _ _ Hkeys1 Hwf1) in Hcfg.
    rewrite (store_upper_union _ _ Hkeys2 Hwf2), <- Hcfg. do 2 f_equal.
    symmetry. apply list_to_map_proper; [by apply upper_entries_NoDup|].
    unfold upper_entries. by rewrite Hperm. }
  rewrite !create_app_run, !merged_config_dict, Hcfg, Hcfg2, Hopt.
  by eexists _, _, _.
Qed.

(** X8. A number for [CORS_RESOURCES] in the test configuration, with
    no other setting of the CORS extension, makes [create_app] raise
    [ValueError]: the merge stores it and the extension rejects it when
    it is installed. *)
Theorem create_app_rejects_resources_number items n s :
  str_keys items = true → dict_wf items →
  (PyStr "CORS_RESOURCES", PyInt n) ∈ items →
  (∀ k v, (PyStr k, v) ∈ items → cors_key k = true → k = "CORS_RESOURCES") →
  create_app (PyDict items) s = Raise ValueError.
Proof. apply create_app_resources_number. Qed.

End Bootstrap.

(** ** Closed instances *)

(** C2, as stated, fails: with a number for [CORS_RESOURCES] beside its
    [SECRET_KEY] entry, the overlay is merged and the CORS extension
    then raises; no instance is returned. *)
Lemma create_app_secret_key_and_cors_setting_raises :
  create_app sample_isupper flask_defaults sample_parse sample_bp
    (PyDict [(PyStr "SECRET_KEY", PyStr "x"); (PyStr "CORS_RESOURCES", PyInt 5)])
    boot = Raise ValueError
  ∧ ¬ ∃ app s',
      create_app sample_isupper flask_defaults sample_parse sample_bp
        (PyDict [(PyStr "SECRET_KEY", PyStr "x"); (PyStr "CORS_RESOURCES", PyInt 5)])
        boot = Return app s'.
Proof.
  assert (create_app sample_isupper flask_defaults sample_parse sample_bp
            (PyDict [(PyStr "SECRET_KEY", PyStr "x"); (PyStr "CORS_RESOURCES", PyInt 5)])
            boot = Raise ValueError) as Hraise.
  { apply (create_app_resources_number _ _ _ _ _ 5).
    - reflexivity.
    - apply NoDup_cons. split; [|apply NoDup_singleton].
      intros Hin%list_elem_of_singleton. discriminate Hin.
    - apply list_elem_of_further, list_elem_of_here.
    - intros k v Hin Hk. apply elem_of_cons in Hin as [Heq|Hin].
      + injection Heq as -> _. discriminate Hk.
      + apply list_elem_of_singleton in Hin. by injection Hin as -> _. }
  split; [done|]. intros (app & s' & Hrun). congruence.
Qed.

(** C3, as stated, fails: an overlay without [SECRET_KEY] whose one
    entry is a number for [CORS_RESOURCES] makes the CORS extension
    raise; no instance is returned. *)
Lemma create_app_cors_setting_raises :
  create_app sample_isupper flask_defaults sample_parse sample_bp
    (PyDict [(PyStr "CORS_RESOURCES", PyInt 5)]) boot = Raise ValueError
  ∧ ¬ ∃ app s',
      create_app sample_isupper flask_defaults sample_parse sample_bp
        (PyDict [(PyStr "CORS_RESOURCES", PyInt 5)]) boot = Return app s'.
Proof.
  assert (create_app sample_isupper flask_defaults sample_parse sample_bp
            (PyDict [(PyStr "CORS_RESOURCES", PyInt 5)]) boot
          = Raise ValueError) as Hraise.
  { apply (create_app_resources_number _ _ _ _ _ 5).
    - reflexivity.
    - apply NoDup_singleton.
    - apply list_elem_of_here.
    - intros k v Hin%list_elem_of_singleton _. by injection Hin as -> _. }
  split; [done|]. intros (app & s' & Hrun). congruence.
Qed.

(** C6, as stated, fails: an overlay with a key that is not a string
    makes the merge raise, and [create_app] returns no instance. *)
Lemma create_app_non_string_key_raises :
  create_app sample_isupper flask_defaults sample_parse sample_bp (PyDict [(PyInt 1, PyStr "x")]) boot
    = Raise AttributeError
  ∧ ¬ ∃ app s',
      create_app sample_isupper flask_defaults sample_parse sample_bp (PyDict [(PyInt 1, PyStr "x")]) boot
        = Return app s'.
Proof.
  rewrite create_app_run. split; [reflexivity|].
  intros (app & s' & Hrun). discriminate Hrun.
Qed.

Lemma create_app_overlay_secret_key_witness :
  ∃ app s',
    create_app sample_isupper flask_defaults sample_parse sample_bp
      (PyDict [(PyStr "SECRET_KEY", PyStr "prod-secret")]) boot = Return app s' ∧
    config app !! "SECRET_KEY" = Some (PyStr "prod-secret").
Proof.
  destruct (create_app_overlay_secret_key sample_isupper flask_defaults
              sample_parse sample_bp
              [(PyStr "SECRET_KEY", PyStr "prod-secret")] (PyStr "prod-secret") boot)
    as (Hvalue & Hreturns & _).
  - reflexivity.
  - apply NoDup_singleton.
  - apply list_elem_of_here.
  - destruct (Hreturns eq_refl) as (app & s' & Hrun).
    exists app, s'. split; [exact Hrun|]. exact (Hvalue app s' Hrun).
Defined.

Lemma create_app_partial_overlay_witness :
  ∃ app s',
    create_app sample_isupper flask_defaults sample_parse sample_bp
      (PyDict [(PyStr "TESTING", PyBool true)]) boot = Return app s' ∧
    config app !! "SECRET_KEY" = Some (PyStr "dev").
Proof.
  destruct (create_app_partial_overlay sample_isupper flask_defaults
              sample_parse sample_bp [(PyStr "TESTING", PyBool true)] boot)
    as (Hkept & Hreturns).
  - reflexivity.
  - simpl. intros Hin%list_elem_of_singleton. discriminate Hin.
  - destruct (Hreturns eq_refl) as (app & s' & Hrun).
    exists app, s'. split; [exact Hrun|]. exact (proj1 (Hkept app s' Hrun)).
Defined.

Lemma create_app_stores_distinct_witness :
  ∃ app1 s1 l1 app2 s2 l2,
    create_app sample_isupper flask_defaults sample_parse sample_bp PyNone boot = Return app1 s1 ∧
    (∀ name l, attrs app1 !! name = Some (StoreRef l) ↔
               name = "user_graphs" ∧ l = l1) ∧
    heap s1 !! l1 = Some [] ∧
    create_app sample_isupper flask_defaults sample_parse sample_bp
      (PyDict [(PyStr "SECRET_KEY", PyStr "prod-secret")])
      (store_update l1 (λ d, d ++ [(PyStr "alice", PyInt 1)]) s1) = Return app2 s2 ∧
    (∀ name l, attrs app2 !! name = Some (StoreRef l) ↔
               name = "user_graphs" ∧ l = l2) ∧
    heap s2 !! l2 = Some [] ∧
    l1 ≠ l2 ∧ heap s2 !! l1 = Some [(PyStr "alice", PyInt 1)] ∧
    ∀ g, heap (store_update l1 g s2) !! l2 = Some [] ∧
         heap (store_update l2 g s2) !! l1 = Some [(PyStr "alice", PyInt 1)].
Proof.
  apply (create_app_stores_distinct sample_isupper flask_defaults sample_parse
           sample_bp PyNone
           (PyDict [(PyStr "SECRET_KEY", PyStr "prod-secret")])
           (λ d, d ++ [(PyStr "alice", PyInt 1)]) boot);
    apply accepted_plain; reflexivity.
Defined.


Lemma create_app_completes_witness :
  ∃ app s',
    create_app sample_isupper flask_defaults sample_parse sample_bp
      (PyDict [(PyStr "SECRET_KEY", PyInt 123)]) boot = Return app s'.
Proof.
  apply (create_app_completes sample_isupper flask_defaults sample_parse
           sample_bp (PyDict [(PyStr "SECRET_KEY", PyInt 123)]) boot);
    reflexivity.
Defined.


Lemma create_app_falsy_overlay_witness :
  create_app sample_isupper flask_defaults sample_parse sample_bp (PyDict []) boot
    = create_app sample_isupper flask_defaults sample_parse sample_bp PyNone boot.
Proof.
  apply (create_app_falsy_overlay sample_isupper flask_defaults sample_parse
           sample_bp (PyDict []) boot).
  reflexivity.
Defined.

Lemma create_app_ignores_non_upper_keys_witness :
  ∃ app s',
    create_app sample_isupper flask_defaults sample_parse sample_bp
      (PyDict [(PyStr "testing", PyBool true)]) boot = Return app s' ∧
    config app !! "testing" = default_config flask_defaults !! "testing".
Proof.
  apply (create_app_ignores_non_upper_keys sample_isupper flask_defaults
           sample_parse sample_bp [(PyStr "testing", PyBool true)] "testing" boot).
  - apply accepted_plain; reflexivity.
  - reflexivity.
Defined.

Lemma create_app_overlay_setting_witness :
  ∃ app s',
    create_app sample_isupper flask_defaults sample_parse sample_bp
      (PyDict [(PyStr "TESTING", PyBool true)]) boot = Return app s' ∧
    config app !! "TESTING" = Some (PyBool true).
Proof.
  apply (create_app_overlay_setting sample_isupper flask_defaults sample_parse
           sample_bp [(PyStr "TESTING", PyBool true)] "TESTING" (PyBool true) boot).
  - apply accepted_plain; reflexivity.
  - apply NoDup_singleton.
  - apply list_elem_of_here.
  - reflexivity.
Defined.

Lemma create_app_config_union_witness :
  ∃ app s',
    create_app sample_isupper flask_defaults sample_parse sample_bp
      (PyDict [(PyStr "TESTING", PyBool true); (PyStr "note", PyInt 1)]) boot
      = Return app s' ∧
    config app =
      list_to_map
        (upper_entries sample_isupper
           [(PyStr "TESTING", PyBool true); (PyStr "note", PyInt 1)])
      ∪ <["SECRET_KEY" := PyStr "dev"]> (default_config flask_defaults).
Proof.
  apply (create_app_config_union sample_isupper flask_defaults sample_parse
           sample_bp
           [(PyStr "TESTING", PyBool true); (PyStr "note", PyInt 1)] boot).
  - apply accepted_plain; reflexivity.
  - apply NoDup_cons. split; [|apply NoDup_singleton].
    intros Hin%list_elem_of_singleton. discriminate Hin.
Defined.

Lemma create_app_config_keys_witness :
  ∃ app s',
    create_app sample_isupper flask_defaults sample_parse sample_bp
      (PyDict [(PyStr "TESTING", PyBool true); (PyStr "note", PyInt 1)]) boot
      = Return app s' ∧
    dom (config app) =
      {["SECRET_KEY"]} ∪ dom (default_config flask_defaults)
      ∪ list_to_set
          (upper_entries sample_isupper
             [(PyStr "TESTING", PyBool true); (PyStr "note", PyInt 1)]).*1.
Proof.
  apply (create_app_config_keys sample_isupper flask_defaults sample_parse
           sample_bp
           [(PyStr "TESTING", PyBool true); (PyStr "note", PyInt 1)] boot).
  apply accepted_plain; reflexivity.
Defined.

Lemma create_app_raises_witness :
  create_app sample_isupper flask_defaults sample_parse sample_bp (PyInt 5) boot = Raise TypeError.
Proof.
  apply (create_app_raises sample_isupper flask_defaults sample_parse
           sample_bp (PyInt 5) boot).
  reflexivity.
Defined.

Lemma create_app_allocates_fresh_witness :
  ∃ app s' l,
    create_app sample_isupper flask_defaults sample_parse sample_bp PyNone serving = Return app s' ∧
    attrs app !! "user_graphs" = Some (StoreRef l) ∧
    heap serving !! l = None ∧
    ∀ l' d, heap serving !! l' = Some d → heap s' !! l' = Some d.
Proof.
  apply (create_app_allocates_fresh sample_isupper flask_defaults sample_parse
           sample_bp PyNone serving).
  apply accepted_plain; reflexivity.
Defined.

Lemma create_app_overlay_order_witness :
  ∃ app s1 s2,
    create_app sample_isupper flask_defaults sample_parse sample_bp
      (PyDict [(PyStr "TESTING", PyBool true); (PyStr "SECRET_KEY", PyStr "k")])
      boot = Return app s1 ∧
    create_app sample_isupper flask_defaults sample_parse sample_bp
      (PyDict [(PyStr "SECRET_KEY", PyStr "k"); (PyStr "TESTING", PyBool true)])
      boot = Return app s2.
Proof.
  apply (create_app_overlay_order sample_isupper flask_defaults sample_parse
           sample_bp
           [(PyStr "TESTING", PyBool true); (PyStr "SECRET_KEY", PyStr "k")]
           [(PyStr "SECRET_KEY", PyStr "k"); (PyStr "TESTING", PyBool true)] boot).
  - apply perm_swap.
  - apply accepted_plain; reflexivity.
  - apply NoDup_cons. split; [|apply NoDup_singleton].
    intros Hin%list_elem_of_singleton. discriminate Hin.
Defined.

Lemma create_app_rejects_resources_number_witness :
  create_app sample_isupper flask_defaults sample_parse sample_bp
    (PyDict [(PyStr "TESTING", PyBool true); (PyStr "CORS_RESOURCES", PyInt 0)])
    boot = Raise ValueError.
Proof.
  apply (create_app_rejects_resources_number sample_isupper flask_defaults
           sample_parse sample_bp
           [(PyStr "TESTING", PyBool true); (PyStr "CORS_RESOURCES", PyInt 0)]
           0 boot).
  - reflexivity.
  - apply NoDup_cons. split; [|apply NoDup_singleton].
    intros Hin%list_elem_of_singleton. discriminate Hin.
  - apply list_elem_of_further, list_elem_of_here.
  - intros k v Hin Hk. apply elem_of_cons in Hin as [Heq|Hin].
    + injection Heq as -> _. discriminate Hk.
    + apply list_elem_of_singleton in Hin. by injection Hin as -> _.
Defined.
